(** * The demonstration collaborators of the GLC planner

    A shallow embedding of [examples/nonholonomic-car-demo.cpp]: the control
    input set [CarControlInputs], the goal test [Sphericalgoal::inGoal], the
    heuristic [EuclideanHeuristic::costToGo], the cost functional
    [ArcLength::cost] and the obstacle test
    [PlanarDemoObstacles::collisionFree].

    The program computes on [double].  The embedding is written once over an
    interface [Arith] of the operations the program applies to a [double];
    [binary64] is the arithmetic the program runs on: IEEE 754 double
    precision ([SpecFloat] with 53 bits of precision), in which every
    definition evaluates.  What is stated of the program is proved either
    for every [Arith], [binary64] included, or of [binary64] itself.

    The real numbers [exactR] are a second instance of the interface.  They
    serve only two statements, about a goal, a heuristic and the obstacles
    built as [main] builds them, which are stated over the reals. *)

From Stdlib Require Import ZArith QArith List Bool Lia.
From Stdlib Require Import Reals Lra.
From Stdlib Require Import Floats.SpecFloat.
Import ListNotations.

Local Open Scope Z_scope.

(** ** The arithmetic of [double] *)

Class Arith (D : Type) : Type := {
  (** a decimal literal of the source text *)
  dlit : Q -> D;
  (** the conversion of an [int] operand in a [double] expression *)
  of_int : Z -> D;
  (** the constant of [<cmath>] *)
  M_PI : D;
  dneg : D -> D;
  dadd : D -> D -> D;
  dsub : D -> D -> D;
  dmul : D -> D -> D;
  ddiv : D -> D -> D;
  dsqrt : D -> D;
  (** [<] and [<=] *)
  dltb : D -> D -> bool;
  dleb : D -> D -> bool
}.

Declare Scope double_scope.
Delimit Scope double_scope with dbl.
Infix "+." := dadd (at level 50, left associativity) : double_scope.
Infix "-." := dsub (at level 50, left associativity) : double_scope.
Infix "*." := dmul (at level 40, left associativity) : double_scope.
Infix "/." := ddiv (at level 40, left associativity) : double_scope.
Infix "<." := dltb (at level 70, no associativity) : double_scope.
Infix "<=." := dleb (at level 70, no associativity) : double_scope.

(** *** IEEE 754 binary64 *)

Definition f64_of_Z (z : Z) : spec_float := binary_normalize 53 1024 z 0 false.

(** A decimal literal is the quotient of two integers; when both are below
    [2^53], as for every literal of the program, the correctly rounded
    quotient is the [double] nearest to the literal. *)
Definition f64_of_Q (q : Q) : spec_float :=
  SFdiv 53 1024 (f64_of_Z (Qnum q)) (f64_of_Z (Zpos (Qden q))).

#[export] Instance binary64 : Arith spec_float := {
  dlit := f64_of_Q;
  of_int := f64_of_Z;
  M_PI := S754_finite false 7074237752028440 (-51);
  dneg := SFopp;
  dadd := SFadd 53 1024;
  dsub := SFsub 53 1024;
  dmul := SFmul 53 1024;
  ddiv := SFdiv 53 1024;
  dsqrt := SFsqrt 53 1024;
  dltb := SFltb;
  dleb := SFleb
}.

(** *** Exact real arithmetic *)

Definition Rltb (x y : R) : bool := if Rlt_dec x y then true else false.
Definition Rleb (x y : R) : bool := if Rle_dec x y then true else false.

#[export] Instance exactR : Arith R := {
  dlit := Q2R;
  of_int := IZR;
  M_PI := PI;
  dneg := Ropp;
  dadd := Rplus;
  dsub := Rminus;
  dmul := Rmult;
  ddiv := Rdiv;
  dsqrt := sqrt;
  dltb := Rltb;
  dleb := Rleb
}.

(** ** The program *)

Section Demo.

Context {D : Type} {A : Arith D}.
Local Open Scope double_scope.

(** [std::valarray<double>].  [v[i]] is defined for [i] below the size of
    [v]; the program never checks it, and the embedding reads [0.0] where
    the program would read out of range. *)
Definition valarray : Type := list D.

Definition vget (v : valarray) (i : nat) : D := nth i v (dlit 0).

Fixpoint vset (v : valarray) (i : nat) (x : D) : valarray :=
  match v, i with
  | [], _ => []
  | _ :: v', O => x :: v'
  | y :: v', S i' => y :: vset v' i' x
  end.

(** Modelled from the spec: [glc::sqr] is declared in
    [glc_planner_core.h], which is not part of the sources; the
    specification reads [glc::sqr(x)] as the square of [x]. *)
Definition sqr (x : D) : D := x *. x.

(** [std::max(a, b)] returns [b] when [a < b] and [a] otherwise. *)
Definition dmax (a b : D) : D := if a <. b then b else a.

(** Modelled from the spec: [glc::InterpolatingPolynomial] is declared in
    [glc_planner_core.h], which is not part of the sources.  A trajectory
    segment gives its initial time, the number of its intervals, the length
    of an interval, and its state at a time. *)
Record InterpolatingPolynomial : Type := {
  initialTime : D;
  numberOfIntervals : Z;
  intervalLength : D;
  at_ : D -> valarray
}.

(** The memory a member function runs in: the members of the object it is
    called on, and the instants at which it has asked a trajectory for its
    state so far (latest last). *)
Record Mem (O : Type) : Type := mkMem {
  this : O;
  evals : list D
}.
Arguments mkMem {O}.
Arguments this {O}.
Arguments evals {O}.

(** [traj->at(t)] *)
Definition call_at {O : Type} (traj : InterpolatingPolynomial) (t : D)
    (m : Mem O) : valarray * Mem O :=
  (at_ traj t, mkMem (this m) (evals m ++ [t])).

(** *** Discretization of control inputs *)

(** Modelled from the spec: the base class [glc::Inputs] is declared in
    [glc_planner_core.h], which is not part of the sources.  It holds the
    ordered sequence of control samples; [addInputSample] appends a copy of
    its argument and [readInputs] returns the sequence. *)
Record Inputs : Type := { points : list valarray }.

Definition addInputSample (self : Inputs) (input : valarray) : Inputs :=
  {| points := points self ++ [input] |}.

Definition readInputs (self : Inputs) : list valarray := points self.

Section CarControlInputs.

(** [glc::linearSpace(start, end, num_points)] is declared in
    [glc_planner_core.h], which is not part of the sources. *)
Variable linearSpace : D -> D -> Z -> valarray.

Definition CarControlInputs (num_steering_angles : Z) : Inputs :=
  let car_speeds : valarray := [dlit 1.0] in
  let steering_angles : valarray :=
    linearSpace (dneg (dlit 0.0625) *. M_PI) (dlit 0.0625 *. M_PI)
                num_steering_angles in
  let control_input : valarray := [dlit 0; dlit 0] in
  snd (fold_left (fun '(control_input, self) vel =>
         fold_left (fun '(control_input, self) ang =>
             let control_input := vset control_input 0 vel in
             let control_input := vset control_input 1 ang in
             (control_input, addInputSample self control_input))
           steering_angles (control_input, self))
       car_speeds (control_input, {| points := [] |})).

End CarControlInputs.

(** *** Goal checking *)

Record Sphericalgoal : Type := {
  radius_sqr : D;
  center : valarray;
  resolution : Z
}.

Definition new_Sphericalgoal (_goal_radius_sqr : D) (_goal_center : valarray)
    (_resolution : Z) : Sphericalgoal :=
  {| radius_sqr := _goal_radius_sqr;
     center := _goal_center;
     resolution := _resolution |}.

(** The body of the loop of [inGoal], run [n] more times. *)
Fixpoint inGoal_for (traj : InterpolatingPolynomial) (dt : D) (n : nat)
    (m : Mem Sphericalgoal) (time : D) : bool * D * Mem Sphericalgoal :=
  match n with
  | O => (false, time, m)
  | S n' =>
      let time := time +. dt in
      let '(state, m) := call_at traj time m in
      if sqr (vget state 0 -. vget (center (this m)) 0)
         +. sqr (vget state 1 -. vget (center (this m)) 1)
         <. radius_sqr (this m)
      then (true, time, m)
      else inGoal_for traj dt n' m time
  end.

(** [bool inGoal(traj, double& time)]: the value returned, the value left in
    [time], and the memory after the call. *)
Definition inGoal (traj : InterpolatingPolynomial) (m : Mem Sphericalgoal)
    (time : D) : bool * D * Mem Sphericalgoal :=
  let time := initialTime traj in
  let dt := of_int (numberOfIntervals traj) *. intervalLength traj
            /. of_int (resolution (this m)) in
  inGoal_for traj dt (Z.to_nat (resolution (this m))) m time.

(** *** Heuristic *)

Record EuclideanHeuristic : Type := {
  radius : D;
  goal : valarray
}.

Definition new_EuclideanHeuristic (_goal : valarray) (_radius : D)
    : EuclideanHeuristic :=
  {| radius := _radius; goal := _goal |}.

(** [double costToGo(state) const] *)
Definition costToGo (self : EuclideanHeuristic) (state : valarray) : D :=
  dmax (dlit 0.0)
       (dsqrt (sqr (vget (goal self) 0 -. vget state 0)
               +. sqr (vget (goal self) 1 -. vget state 1))
        -. radius self).

(** *** Cost function *)

Record ArcLength : Type := { sample_resolution : D }.

Definition new_ArcLength (_sample_resolution : Z) : ArcLength :=
  {| sample_resolution := of_int _sample_resolution |}.

(** [double cost(traj, control, t0, tf) const] *)
Definition cost (self : ArcLength) (traj control : InterpolatingPolynomial)
    (t0 tf : D) : D :=
  of_int (numberOfIntervals traj) *. intervalLength traj.

(** *** State constraints *)

(** The member [resolution] of this class is [obs_resolution] here: the name
    is taken by the member of [Sphericalgoal]. *)
Record PlanarDemoObstacles : Type := {
  obs_resolution : Z;
  center1 : valarray;
  center2 : valarray
}.

Definition new_PlanarDemoObstacles (_resolution : Z) : PlanarDemoObstacles :=
  {| obs_resolution := _resolution;
     center1 := [dlit 3.0; dlit 2.0];
     center2 := [dlit 6.0; dlit 8.0] |}.

(** The body of the loop of [collisionFree], run [n] more times. *)
Fixpoint collisionFree_for (traj : InterpolatingPolynomial) (dt : D) (n : nat)
    (m : Mem PlanarDemoObstacles) (t : D) : bool * Mem PlanarDemoObstacles :=
  match n with
  | O => (true, m)
  | S n' =>
      let t := t +. dt in
      let '(state, m) := call_at traj t m in
      if (sqr (vget state 0 -. vget (center1 (this m)) 0)
          +. sqr (vget state 1 -. vget (center1 (this m)) 1) <=. dlit 4.0)
         || (sqr (vget state 0 -. vget (center2 (this m)) 0)
             +. sqr (vget state 1 -. vget (center2 (this m)) 1) <=. dlit 4.0)
      then (false, m)
      else collisionFree_for traj dt n' m t
  end.

(** [bool collisionFree(traj)]: the value returned and the memory after the
    call. *)
Definition collisionFree (traj : InterpolatingPolynomial)
    (m : Mem PlanarDemoObstacles) : bool * Mem PlanarDemoObstacles :=
  let t := initialTime traj in
  let dt := of_int (numberOfIntervals traj) *. intervalLength traj
            /. of_int (obs_resolution (this m)) in
  collisionFree_for traj dt (Z.to_nat (obs_resolution (this m))) m t.

(** *** The objects [main] builds *)

Definition alg_params_res : Z := 21.
Definition goal_radius_sqr : D := dlit 0.25.
Definition goal_center : valarray := [dlit 10.0; dlit 10.0].

Definition main_controls (linearSpace : D -> D -> Z -> valarray) : Inputs :=
  CarControlInputs linearSpace alg_params_res.
Definition main_performance_objective : ArcLength := new_ArcLength 4.
Definition main_goal : Sphericalgoal :=
  new_Sphericalgoal goal_radius_sqr goal_center 10.
Definition main_obstacles : PlanarDemoObstacles := new_PlanarDemoObstacles 10.
Definition main_heuristic : EuclideanHeuristic :=
  new_EuclideanHeuristic goal_center (dsqrt goal_radius_sqr).

(** ** What the calls are observed to do *)

(** A call of [inGoal] from a memory that has evaluated nothing yet: the
    value it returns, the value it leaves in [time], the instants at which
    it evaluates the trajectory. *)
Definition inGoal_returns (traj : InterpolatingPolynomial) (g : Sphericalgoal)
    (time : D) : bool :=
  fst (fst (inGoal traj (mkMem g []) time)).

Definition inGoal_time (traj : InterpolatingPolynomial) (g : Sphericalgoal)
    (time : D) : D :=
  snd (fst (inGoal traj (mkMem g []) time)).

Definition inGoal_evaluated (traj : InterpolatingPolynomial)
    (g : Sphericalgoal) (time : D) : list D :=
  evals (snd (inGoal traj (mkMem g []) time)).

(** The same for [collisionFree]. *)
Definition collisionFree_returns (traj : InterpolatingPolynomial)
    (o : PlanarDemoObstacles) : bool :=
  fst (collisionFree traj (mkMem o [])).

Definition collisionFree_evaluated (traj : InterpolatingPolynomial)
    (o : PlanarDemoObstacles) : list D :=
  evals (snd (collisionFree traj (mkMem o []))).

(** The duration of a segment and the step between two samples, as both
    loops compute them. *)
Definition duration (traj : InterpolatingPolynomial) : D :=
  of_int (numberOfIntervals traj) *. intervalLength traj.

Definition step (traj : InterpolatingPolynomial) (r : Z) : D :=
  duration traj /. of_int r.

(** The squared planar distance of a state to a centre, as both loops
    compute it. *)
Definition sq_dist (state c : valarray) : D :=
  sqr (vget state 0 -. vget c 0) +. sqr (vget state 1 -. vget c 1).

(** The value of the time variable after [i] executions of [time += dt]. *)
Definition advance (t dt : D) (i : nat) : D :=
  Nat.iter i (fun t => t +. dt) t.

(** The test [inGoal] applies to a sampled state. *)
Definition in_goal (g : Sphericalgoal) (state : valarray) : bool :=
  sq_dist state (center g) <. radius_sqr g.

(** The test [collisionFree] applies to a sampled state. *)
Definition in_obstacle (o : PlanarDemoObstacles) (state : valarray) : bool :=
  (sq_dist state (center1 o) <=. dlit 4.0)
  || (sq_dist state (center2 o) <=. dlit 4.0).

(** The first of the instants [t + dt], [t + dt + dt], ... ([n] of them, each
    the previous one plus [dt]) that satisfies [P], by its rank from 1. *)
Fixpoint first_hit (P : D -> bool) (t dt : D) (n : nat) : option nat :=
  match n with
  | O => None
  | S n' =>
      if P (t +. dt) then Some 1%nat
      else option_map S (first_hit P (t +. dt) dt n')
  end.

(** The instants of the samples of rank 1 to [i]. *)
Definition sample_times (t dt : D) (i : nat) : list D :=
  map (advance t dt) (seq 1 i).

(** *** Inputs the statements below are tried on *)

(** A segment of one interval of length zero: the vehicle stands at the
    point [(x, y)] at its initial time. *)
Definition standing (x y : D) : InterpolatingPolynomial :=
  {| initialTime := dlit 0.0;
     numberOfIntervals := 1;
     intervalLength := dlit 0.0;
     at_ := fun _ => [x; y; dlit 0.0] |}.

(** A segment of four intervals of length 1.25 along the diagonal: the
    vehicle is at [(t, t)] at time [t]. *)
Definition diagonal : InterpolatingPolynomial :=
  {| initialTime := dlit 0.0;
     numberOfIntervals := 4;
     intervalLength := dlit 1.25;
     at_ := fun t => [t; t; dlit 0.0] |}.

(** Evenly spaced values from [first] on, [n] of them: a stand-in for
    [glc::linearSpace]. *)
Definition even_spacing (first last : D) (n : Z) : valarray :=
  map (fun i => first +. of_int (Z.of_nat i) *. ((last -. first) /. of_int n))
      (seq 0 (Z.to_nat n)).

(** A heuristic built with a negative radius. *)
Definition inverted_heuristic : EuclideanHeuristic :=
  new_EuclideanHeuristic [dlit 0.0; dlit 0.0] (dneg (dlit 1.0)).

End Demo.

Arguments mkMem {D O}.
Arguments this {D O}.
Arguments evals {D O}.

Section MoreInputs.

Context {D : Type} {A : Arith D}.
Local Open Scope double_scope.

(** A segment of four intervals of length 1.25 heading north from the
    start state of the demo: the vehicle is at [(0, t)] at time [t]. *)
Definition northbound : InterpolatingPolynomial :=
  {| initialTime := dlit 0.0;
     numberOfIntervals := 4;
     intervalLength := dlit 1.25;
     at_ := fun t => [dlit 0.0; t; M_PI /. dlit 2.0] |}.

(** A segment of one interval of length [0.3]. *)
Definition short_hop : InterpolatingPolynomial :=
  {| initialTime := dlit 0.0;
     numberOfIntervals := 1;
     intervalLength := dlit 0.3;
     at_ := fun t => [dlit 0.0; t; M_PI /. dlit 2.0] |}.

End MoreInputs.

(** A segment all of whose states have lost their first coordinate to a
    NaN. *)
Definition lost_segment : @InterpolatingPolynomial spec_float :=
  {| initialTime := dlit 0.0;
     numberOfIntervals := 4;
     intervalLength := dlit 1.25;
     at_ := fun t => [S754_nan; t; dlit 0.0] |}.

(** The time [1e16], where two consecutive doubles are 2 apart. *)
Definition far_start : spec_float := dlit 10000000000000000.

(** A segment of four intervals of length 1 that begins at [far_start]: the
    vehicle is at [here] at the initial time and at [there] at every other
    instant. *)
Definition late_segment (here there : @valarray spec_float)
    : @InterpolatingPolynomial spec_float :=
  {| initialTime := far_start;
     numberOfIntervals := 4;
     intervalLength := dlit 1.0;
     at_ := fun t => if SFeqb t far_start then here else there |}.

(** A segment of no interval, whose interval length is infinite. *)
Definition endless_segment : @InterpolatingPolynomial spec_float :=
  {| initialTime := dlit 0.0;
     numberOfIntervals := 0;
     intervalLength := S754_infinity false;
     at_ := fun _ => [dlit 0.0; dlit 0.0; dlit 0.0] |}.

(** The largest value of an [int]. *)
Definition INT_MAX : Z := 2147483647.

(** A double that is a zero, a positive finite number or plus infinity. *)
Definition nonneg_class (x : spec_float) : Prop :=
  match x with
  | S754_zero _ => True
  | S754_finite s _ _ => s = false
  | S754_infinity s => s = false
  | S754_nan => False
  end.

(** The rational number a finite double stands for. *)
Definition SF2Q (x : spec_float) : Q :=
  match x with
  | S754_finite s m e =>
      ((if s then (-1) else 1) * inject_Z (Z.pos m) * Qpower 2 e)%Q
  | _ => 0%Q
  end.

(** ** The words of the specification, over the reals *)

(** A state is inside the goal disk: its squared planar distance to the
    centre is below the squared radius. *)
Definition inside_goal (g : @Sphericalgoal R) (s : list R) : Prop :=
  ((vget s 0 - vget (center g) 0) ^ 2 + (vget s 1 - vget (center g) 1) ^ 2
   < radius_sqr g)%R.

(** A state is at squared planar distance at most 4 from [(3, 2)] or from
    [(6, 8)]. *)
Definition hits_obstacle (s : list R) : Prop :=
  ((vget s 0 - 3) ^ 2 + (vget s 1 - 2) ^ 2 <= 4)%R
  \/ ((vget s 0 - 6) ^ 2 + (vget s 1 - 8) ^ 2 <= 4)%R.

(** The Euclidean distance between two points of the plane. *)
Definition euclid (x y px py : R) : R :=
  sqrt ((x - px) ^ 2 + (y - py) ^ 2).

(** ** What the proofs use of the comparisons

    Both readings of [double] satisfy these: [<] implies [<=], nothing is
    below itself, and the literals [0.0] and [4.0] are at most themselves
    (in [binary64] a NaN is not at most itself, and no literal is a NaN). *)
Class Comparisons {D : Type} (A : Arith D) : Prop := {
  dltb_dleb : forall x y : D, dltb x y = true -> dleb x y = true;
  dltb_irrefl : forall x : D, dltb x x = false;
  dleb_refl_0 : dleb (dlit 0.0) (dlit 0.0) = true;
  dleb_refl_4 : dleb (dlit 4.0) (dlit 4.0) = true
}.

(** ** The two readings satisfy [Comparisons] *)

Lemma Rltb_true (x y : R) : Rltb x y = true <-> (x < y)%R.
Proof.
  unfold Rltb. destruct (Rlt_dec x y); split; intros; try easy.
Qed.

Lemma Rleb_true (x y : R) : Rleb x y = true <-> (x <= y)%R.
Proof.
  unfold Rleb. destruct (Rle_dec x y); split; intros; try easy.
Qed.

Lemma Rltb_false (x y : R) : Rltb x y = false <-> (y <= x)%R.
Proof.
  unfold Rltb. destruct (Rlt_dec x y); split; intros; try easy; lra.
Qed.

Lemma Rleb_false (x y : R) : Rleb x y = false <-> (y < x)%R.
Proof.
  unfold Rleb. destruct (Rle_dec x y); split; intros; try easy; lra.
Qed.

#[export] Instance exactR_Comparisons : Comparisons exactR.
Proof.
  split; cbn.
  - intros x y Hlt. apply Rleb_true. apply Rltb_true in Hlt. lra.
  - intros x. apply Rltb_false. lra.
  - apply Rleb_true. lra.
  - apply Rleb_true. lra.
Qed.

Lemma SFcompare_refl_not_Lt (x : spec_float) : SFcompare x x <> Some Lt.
Proof.
  destruct x as [s|s| |s m e]; cbn; try discriminate.
  - destruct s; discriminate.
  - rewrite Z.compare_refl, Pos.compare_cont_refl.
    destruct s; discriminate.
Qed.

#[export] Instance binary64_Comparisons : Comparisons binary64.
Proof.
  split; cbn.
  - intros x y. unfold SFltb, SFleb.
    destruct (SFcompare x y) as [[]|]; easy.
  - intros x. unfold SFltb.
    pose proof (SFcompare_refl_not_Lt x) as Hx.
    destruct (SFcompare x x) as [[]|]; congruence.
  - reflexivity.
  - reflexivity.
Qed.

(** ** The sampling loops, for every arithmetic *)

Section Sampling.

Context {D : Type} {A : Arith D}.
Local Open Scope double_scope.

Lemma advance_shift (t dt : D) (i : nat) :
  advance (t +. dt) dt i = advance t dt (S i).
Proof.
  unfold advance. now rewrite Nat.iter_succ_r.
Qed.

Lemma sample_times_shift (t dt : D) (i : nat) :
  (t +. dt) :: sample_times (t +. dt) dt i = sample_times t dt (S i).
Proof.
  unfold sample_times. cbn [seq map]. f_equal.
  rewrite <- (seq_shift i 1), map_map.
  apply map_ext. intros k. apply advance_shift.
Qed.

Lemma first_hit_Some (P : D -> bool) (n : nat) : forall (t dt : D) (i : nat),
  first_hit P t dt n = Some i <->
  (1 <= i <= n)%nat /\ P (advance t dt i) = true /\
  (forall j, (1 <= j < i)%nat -> P (advance t dt j) = false).
Proof.
  induction n as [|n IH]; intros t dt i; cbn [first_hit].
  - split; [discriminate | intros [Hi _]; lia].
  - destruct (P (t +. dt)) eqn:Hp.
    + split.
      * intros [= <-]. split; [lia | split; [exact Hp | intros j Hj; lia]].
      * intros (Hi & Hpi & Hmin).
        destruct (Nat.eq_dec i 1) as [->|Hne]; [reflexivity|].
        specialize (Hmin 1%nat ltac:(lia)). cbn in Hmin. congruence.
    + split.
      * destruct (first_hit P (t +. dt) dt n) as [k|] eqn:Hk;
          cbn [option_map]; [|discriminate].
        intros [= <-]. apply IH in Hk. destruct Hk as (Hk & Hpk & Hmin).
        rewrite advance_shift in Hpk. split; [lia | split; [exact Hpk|]].
        intros [|[|j]] Hj; [lia | exact Hp |].
        rewrite <- advance_shift. apply Hmin. lia.
      * intros (Hi & Hpi & Hmin).
        destruct i as [|[|i]]; [lia | cbn in Hpi; congruence |].
        assert (Hk : first_hit P (t +. dt) dt n = Some (S i)).
        { apply IH. split; [lia | split].
          - now rewrite advance_shift.
          - intros j Hj. rewrite advance_shift. apply Hmin. lia. }
        now rewrite Hk.
Qed.

Lemma first_hit_None (P : D -> bool) (n : nat) (t dt : D) :
  first_hit P t dt n = None <->
  (forall i, (1 <= i <= n)%nat -> P (advance t dt i) = false).
Proof.
  split.
  - intros Hnone.
    induction i as [i IHi] using (well_founded_induction Nat.lt_wf_0).
    intros Hi. destruct (P (advance t dt i)) eqn:Hp; [|reflexivity].
    assert (Hs : first_hit P t dt n = Some i).
    { apply first_hit_Some. split; [lia | split; [exact Hp|]].
      intros j Hj. apply IHi; lia. }
    congruence.
  - intros Hall. destruct (first_hit P t dt n) as [i|] eqn:Hi; [|reflexivity].
    apply first_hit_Some in Hi. destruct Hi as (Hi & Hp & _).
    rewrite Hall in Hp by exact Hi. discriminate.
Qed.

(** A sample satisfies [P] exactly when the search for the first one
    succeeds. *)
Lemma first_hit_exists (P : D -> bool) (n : nat) (t dt : D) :
  (exists i, first_hit P t dt n = Some i) <->
  (exists i, (1 <= i <= n)%nat /\ P (advance t dt i) = true).
Proof.
  split.
  - intros [i Hi]. apply first_hit_Some in Hi. exists i. tauto.
  - intros [i [Hi Hp]].
    destruct (first_hit P t dt n) as [k|] eqn:Hk; [eauto|].
    rewrite first_hit_None in Hk. rewrite Hk in Hp by exact Hi. discriminate.
Qed.

(** The loop of [inGoal] stops at the first sample inside the goal, leaves
    the instant of that sample in [time], and has asked the trajectory for
    its state at the instants of the samples up to that one; when there is
    none, it has gone through all [n] samples. *)
Lemma inGoal_for_first_hit (traj : InterpolatingPolynomial) (dt : D) (n : nat) :
  forall (m : Mem Sphericalgoal) (t : D),
  inGoal_for traj dt n m t =
  match first_hit (fun u => in_goal (this m) (at_ traj u)) t dt n with
  | Some i => (true, advance t dt i,
               mkMem (this m) (evals m ++ sample_times t dt i))
  | None => (false, advance t dt n,
             mkMem (this m) (evals m ++ sample_times t dt n))
  end.
Proof.
  induction n as [|n IH]; intros m t.
  - cbn. rewrite app_nil_r. now destruct m.
  - cbn [inGoal_for first_hit call_at this evals].
    change (sqr _ +. sqr _ <. _) with (in_goal (this m) (at_ traj (t +. dt))).
    destruct (in_goal (this m) (at_ traj (t +. dt))) eqn:Hin.
    + reflexivity.
    + rewrite IH. cbn [this evals].
      destruct (first_hit _ (t +. dt) dt n) as [i|]; cbn [option_map];
        now rewrite advance_shift, <- app_assoc, <- sample_times_shift.
Qed.

(** The loop of [collisionFree], in the same way. *)
Lemma collisionFree_for_first_hit (traj : InterpolatingPolynomial) (dt : D)
    (n : nat) : forall (m : Mem PlanarDemoObstacles) (t : D),
  collisionFree_for traj dt n m t =
  match first_hit (fun u => in_obstacle (this m) (at_ traj u)) t dt n with
  | Some i => (false, mkMem (this m) (evals m ++ sample_times t dt i))
  | None => (true, mkMem (this m) (evals m ++ sample_times t dt n))
  end.
Proof.
  induction n as [|n IH]; intros m t.
  - cbn. rewrite app_nil_r. now destruct m.
  - cbn [collisionFree_for first_hit call_at this evals].
    change ((_ <=. _) || (_ <=. _))%bool
      with (in_obstacle (this m) (at_ traj (t +. dt))).
    destruct (in_obstacle (this m) (at_ traj (t +. dt))) eqn:Hin.
    + reflexivity.
    + rewrite IH. cbn [this evals].
      destruct (first_hit _ (t +. dt) dt n) as [i|]; cbn [option_map];
        now rewrite <- app_assoc, <- sample_times_shift.
Qed.

Lemma in_sample_times (t dt u : D) (i : nat) :
  In u (sample_times t dt i) <->
  exists k, (1 <= k <= i)%nat /\ u = advance t dt k.
Proof.
  unfold sample_times. rewrite in_map_iff. split.
  - intros [k [<- Hk]]. apply in_seq in Hk. exists k. split; [lia|reflexivity].
  - intros [k [Hk ->]]. exists k. split; [reflexivity|]. apply in_seq. lia.
Qed.

(** [inGoal], from any memory and any value of [time]. *)
Lemma inGoal_first_hit (traj : InterpolatingPolynomial)
    (m : Mem Sphericalgoal) (time : D) :
  let t0 := initialTime traj in
  let dt := step traj (resolution (this m)) in
  let n := Z.to_nat (resolution (this m)) in
  inGoal traj m time =
  match first_hit (fun u => in_goal (this m) (at_ traj u)) t0 dt n with
  | Some i => (true, advance t0 dt i,
               mkMem (this m) (evals m ++ sample_times t0 dt i))
  | None => (false, advance t0 dt n,
             mkMem (this m) (evals m ++ sample_times t0 dt n))
  end.
Proof.
  cbv zeta. unfold inGoal. apply inGoal_for_first_hit.
Qed.

(** [collisionFree], from any memory. *)
Lemma collisionFree_first_hit (traj : InterpolatingPolynomial)
    (m : Mem PlanarDemoObstacles) :
  let t0 := initialTime traj in
  let dt := step traj (obs_resolution (this m)) in
  let n := Z.to_nat (obs_resolution (this m)) in
  collisionFree traj m =
  match first_hit (fun u => in_obstacle (this m) (at_ traj u)) t0 dt n with
  | Some i => (false, mkMem (this m) (evals m ++ sample_times t0 dt i))
  | None => (true, mkMem (this m) (evals m ++ sample_times t0 dt n))
  end.
Proof.
  cbv zeta. unfold collisionFree. apply collisionFree_for_first_hit.
Qed.

(** With at least one sample, the first instant evaluated is one step after
    the initial time. *)
Lemma inGoal_evaluates_first_step (traj : InterpolatingPolynomial)
    (g : Sphericalgoal) (time : D) :
  1 <= resolution g ->
  In (initialTime traj +. step traj (resolution g))
     (inGoal_evaluated traj g time).
Proof.
  intros Hr. unfold inGoal_evaluated. rewrite inGoal_first_hit. cbn [this evals].
  destruct (Z.to_nat (resolution g)) as [|n] eqn:Hn; [lia|].
  cbn [first_hit].
  destruct (in_goal g _); [|destruct (first_hit _ _ _ n) as [i|]];
    cbn [option_map snd evals app]; rewrite <- sample_times_shift; now left.
Qed.

Lemma collisionFree_evaluates_first_step (traj : InterpolatingPolynomial)
    (o : PlanarDemoObstacles) :
  1 <= obs_resolution o ->
  In (initialTime traj +. step traj (obs_resolution o))
     (collisionFree_evaluated traj o).
Proof.
  intros Hr. unfold collisionFree_evaluated. rewrite collisionFree_first_hit.
  cbn [this evals].
  destruct (Z.to_nat (obs_resolution o)) as [|n] eqn:Hn; [lia|].
  cbn [first_hit].
  destruct (in_obstacle o _); [|destruct (first_hit _ _ _ n) as [i|]];
    cbn [option_map snd evals app]; rewrite <- sample_times_shift; now left.
Qed.

End Sampling.

(** ** Claims that hold for every arithmetic *)

(** C10: when [Sphericalgoal] or [PlanarDemoObstacles] is constructed with a
    resolution [r <= 0], the body of the sampling loop runs zero times: for
    every segment [inGoal] returns false (leaving the initial time in [time]
    and evaluating the trajectory nowhere) and [collisionFree] returns true.
    The step [duration / r] is computed all the same, but the outcome is the
    same whatever its value [dt] is. *)
Theorem nonpositive_resolution_samples_nothing {D : Type} {A : Arith D}
    (r : Z) (rho : D) (c : valarray) (traj : InterpolatingPolynomial)
    (time : D) (log : list D) :
  r <= 0 ->
  let g := new_Sphericalgoal rho c r in
  let o := new_PlanarDemoObstacles r in
  inGoal traj (mkMem g log) time = (false, initialTime traj, mkMem g log)
  /\ collisionFree traj (mkMem o log) = (true, mkMem o log)
  /\ (forall dt : D,
        inGoal_for traj dt (Z.to_nat r) (mkMem g log) (initialTime traj)
        = (false, initialTime traj, mkMem g log))
  /\ (forall dt : D,
        collisionFree_for traj dt (Z.to_nat r) (mkMem o log) (initialTime traj)
        = (true, mkMem o log)).
Proof.
  intros Hr g o.
  assert (Hn : Z.to_nat r = 0%nat) by lia.
  unfold inGoal, collisionFree. cbn [this g o new_Sphericalgoal resolution
    new_PlanarDemoObstacles obs_resolution].
  rewrite Hn. cbn [inGoal_for collisionFree_for]. auto.
Qed.

(** With resolution 0 the demo's goal is never detected on the diagonal
    segment, which is vacuously collision-free (binary64). *)
Lemma nonpositive_resolution_witness :
  inGoal (A := binary64) diagonal
         (mkMem (new_Sphericalgoal goal_radius_sqr goal_center 0) [])
         (dlit 7.0)
  = (false, dlit 0.0, mkMem (new_Sphericalgoal goal_radius_sqr goal_center 0) [])
  /\ collisionFree (A := binary64) diagonal (mkMem (new_PlanarDemoObstacles 0) [])
     = (true, mkMem (new_PlanarDemoObstacles 0) []).
Proof.
  destruct (nonpositive_resolution_samples_nothing (A := binary64)
              0 goal_radius_sqr goal_center diagonal (dlit 7.0) [])
    as (Hg & Ho & _); [lia|].
  split; [exact Hg | exact Ho].
Defined.

(** C6: [inGoal], [costToGo], [cost] and [collisionFree] are deterministic
    and leave the object alone: two objects that agree on every member
    ([radius_sqr], [center], [resolution]; [resolution], [center1],
    [center2]; [radius], [goal]; [sample_resolution]), called with the same
    arguments, return the same results whatever has been evaluated before,
    and after a call the members are what they were. *)
Theorem collaborators_pure {D : Type} {A : Arith D}
    (g g' : Sphericalgoal) (o o' : PlanarDemoObstacles)
    (h h' : EuclideanHeuristic) (a a' : ArcLength)
    (traj control : InterpolatingPolynomial) (state : valarray)
    (time t0 tf : D) (log log' : list D) :
  radius_sqr g = radius_sqr g' -> center g = center g' ->
  resolution g = resolution g' ->
  obs_resolution o = obs_resolution o' -> center1 o = center1 o' ->
  center2 o = center2 o' ->
  radius h = radius h' -> goal h = goal h' ->
  sample_resolution a = sample_resolution a' ->
  fst (inGoal traj (mkMem g log) time) = fst (inGoal traj (mkMem g' log') time)
  /\ this (snd (inGoal traj (mkMem g log) time)) = g
  /\ fst (collisionFree traj (mkMem o log))
     = fst (collisionFree traj (mkMem o' log'))
  /\ this (snd (collisionFree traj (mkMem o log))) = o
  /\ costToGo h state = costToGo h' state
  /\ cost a traj control t0 tf = cost a' traj control t0 tf.
Proof.
  intros Hg1 Hg2 Hg3 Ho1 Ho2 Ho3 Hh1 Hh2 Ha.
  assert (g = g') as <- by (destruct g, g'; cbn in *; congruence).
  assert (o = o') as <- by (destruct o, o'; cbn in *; congruence).
  assert (h = h') as <- by (destruct h, h'; cbn in *; congruence).
  rewrite !inGoal_first_hit, !collisionFree_first_hit. cbn [this evals].
  repeat split.
  - now destruct (first_hit _ _ _ (Z.to_nat (resolution g))).
  - now destruct (first_hit _ _ _ (Z.to_nat (resolution g))).
  - now destruct (first_hit _ _ _ (Z.to_nat (obs_resolution o))).
  - now destruct (first_hit _ _ _ (Z.to_nat (obs_resolution o))).
Qed.

(** The objects [main] builds, called on the diagonal segment after
    different histories (binary64). *)
Lemma collaborators_pure_witness :
  fst (inGoal (A := binary64) diagonal (mkMem main_goal []) (dlit 0.0))
  = fst (inGoal diagonal (mkMem main_goal [dlit 1.0]) (dlit 0.0))
  /\ this (snd (inGoal (A := binary64) diagonal (mkMem main_goal [])
                       (dlit 0.0))) = main_goal.
Proof.
  destruct (collaborators_pure (A := binary64)
              main_goal main_goal main_obstacles main_obstacles
              main_heuristic main_heuristic
              main_performance_objective main_performance_objective
              diagonal diagonal [dlit 1.0; dlit 1.0; dlit 0.0]
              (dlit 0.0) (dlit 0.0) (dlit 5.0) [] [dlit 1.0]
              eq_refl eq_refl eq_refl eq_refl eq_refl eq_refl
              eq_refl eq_refl eq_refl)
    as (H1 & H2 & _).
  split; [exact H1 | exact H2].
Defined.

(** C8: the goal disk is open and the obstacle disks are closed.  A state
    that [inGoal] reports as inside the goal is never at squared distance
    exactly [radius_sqr] from the centre, and a segment whose samples are all
    at exactly that distance is not in the goal; a sample at squared
    distance exactly [4.0] from either obstacle centre makes
    [collisionFree] return false. *)
Theorem goal_open_obstacles_closed {D : Type} {A : Arith D}
    (C : Comparisons A) (traj : InterpolatingPolynomial)
    (g : Sphericalgoal) (o : PlanarDemoObstacles) (time : D) :
  (inGoal_returns traj g time = true ->
   sq_dist (at_ traj (inGoal_time traj g time)) (center g) <> radius_sqr g)
  /\ ((forall k, (1 <= k <= Z.to_nat (resolution g))%nat ->
         sq_dist (at_ traj (advance (initialTime traj)
                                    (step traj (resolution g)) k))
                 (center g) = radius_sqr g) ->
      inGoal_returns traj g time = false)
  /\ (forall k, (1 <= k <= Z.to_nat (obs_resolution o))%nat ->
        let state := at_ traj (advance (initialTime traj)
                                       (step traj (obs_resolution o)) k) in
        sq_dist state (center1 o) = dlit 4.0
        \/ sq_dist state (center2 o) = dlit 4.0 ->
        collisionFree_returns traj o = false).
Proof.
  unfold inGoal_returns, inGoal_time, collisionFree_returns.
  rewrite inGoal_first_hit, collisionFree_first_hit. cbn [this evals].
  split; [|split].
  - destruct (first_hit _ _ _ (Z.to_nat (resolution g))) as [i|] eqn:Hi;
      cbn [fst snd]; [|discriminate].
    intros _ Heq. apply first_hit_Some in Hi. destruct Hi as (_ & Hin & _).
    unfold in_goal in Hin. rewrite Heq, dltb_irrefl in Hin. discriminate.
  - intros Hall.
    destruct (first_hit _ _ _ (Z.to_nat (resolution g))) as [i|] eqn:Hi;
      cbn [fst]; [|reflexivity].
    apply first_hit_Some in Hi. destruct Hi as (Hi & Hin & _).
    unfold in_goal in Hin. rewrite (Hall i Hi), dltb_irrefl in Hin.
    discriminate.
  - intros k Hk Hon.
    destruct (first_hit _ _ _ (Z.to_nat (obs_resolution o))) as [i|] eqn:Hi;
      cbn [fst]; [reflexivity|].
    rewrite first_hit_None in Hi. specialize (Hi k Hk).
    unfold in_obstacle in Hi. apply orb_false_elim in Hi.
    destruct Hi as [H1 H2].
    destruct Hon as [Heq|Heq]; rewrite Heq, dleb_refl_4 in *; discriminate.
Qed.

(** A vehicle standing on the rim of the demo's goal disk is not in the
    goal; one standing on the rim of the first obstacle collides
    (binary64). *)
Lemma goal_open_obstacles_closed_witness :
  inGoal_returns (A := binary64) (standing (dlit 10.5) (dlit 10.0))
                 main_goal (dlit 0.0) = false
  /\ collisionFree_returns (A := binary64) (standing (dlit 5.0) (dlit 2.0))
                           main_obstacles = false.
Proof.
  split.
  - pose proof (goal_open_obstacles_closed (A := binary64)
                  binary64_Comparisons (standing (dlit 10.5) (dlit 10.0))
                  main_goal main_obstacles (dlit 0.0)) as (_ & Hrim & _).
    apply Hrim. intros k _. vm_compute. reflexivity.
  - pose proof (goal_open_obstacles_closed (A := binary64)
                  binary64_Comparisons (standing (dlit 5.0) (dlit 2.0))
                  main_goal main_obstacles (dlit 0.0)) as (_ & _ & Hrim).
    apply (Hrim 1%nat).
    + vm_compute. lia.
    + left. vm_compute. reflexivity.
Defined.

(** C7: [costToGo] returns [max(0.0, sqrt(...) - radius)], which is never
    below [0.0]: it is [0.0] itself whenever the difference is not above
    [0.0], as for a state strictly inside the goal disk. *)
Theorem costToGo_nonnegative {D : Type} {A : Arith D} (C : Comparisons A)
    (h : EuclideanHeuristic) (s : valarray) :
  (2 <= length s)%nat ->
  let unclamped :=
    dsub (dsqrt (dadd (sqr (dsub (nth 0 (goal h) (dlit 0)) (nth 0 s (dlit 0))))
                      (sqr (dsub (nth 1 (goal h) (dlit 0)) (nth 1 s (dlit 0))))))
         (radius h) in
  costToGo h s = dmax (dlit 0.0) unclamped
  /\ dleb (dlit 0.0) (costToGo h s) = true
  /\ (dltb (dlit 0.0) unclamped = false -> costToGo h s = dlit 0.0).
Proof.
  intros _ unclamped.
  assert (He : costToGo h s = dmax (dlit 0.0) unclamped) by reflexivity.
  rewrite He. unfold dmax. split; [reflexivity|].
  destruct (dltb (dlit 0.0) unclamped) eqn:Hlt.
  - split; [now apply dltb_dleb | discriminate].
  - split; [apply dleb_refl_0 | reflexivity].
Qed.

(** At the goal centre the demo's heuristic is [0.0] (binary64). *)
Lemma costToGo_nonnegative_witness :
  dleb (Arith := binary64) (dlit 0.0)
       (costToGo main_heuristic [dlit 10.0; dlit 10.0; dlit 0.0]) = true
  /\ costToGo (A := binary64) main_heuristic [dlit 10.0; dlit 10.0; dlit 0.0]
     = dlit 0.0.
Proof.
  destruct (costToGo_nonnegative (A := binary64) binary64_Comparisons
              main_heuristic [dlit 10.0; dlit 10.0; dlit 0.0])
    as (_ & Hle & Hzero).
  - cbn. lia.
  - split; [exact Hle | apply Hzero; vm_compute; reflexivity].
Defined.

(** The inner loop of the constructor of [CarControlInputs]: one sample
    [(vel, ang)] is added per steering angle, in order. *)
Lemma CarControlInputs_inner_loop {D : Type} {A : Arith D} (vel : D)
    (angles : valarray) : forall (a b : D) (self : Inputs),
  points (snd (fold_left (fun '(control_input, self) ang =>
                  let control_input := vset control_input 0 vel in
                  let control_input := vset control_input 1 ang in
                  (control_input, addInputSample self control_input))
                angles ([a; b], self)))
  = points self ++ map (fun ang => [vel; ang]) angles.
Proof.
  induction angles as [|ang angles IH]; intros a b self.
  - cbn. now rewrite app_nil_r.
  - cbn [fold_left map vset]. rewrite IH. cbn [addInputSample points].
    now rewrite <- app_assoc.
Qed.

(** The constructor of [CarControlInputs] adds one sample
    [(1.0, steering angle)] per steering angle, in order. *)
Lemma CarControlInputs_points {D : Type} {A : Arith D}
    (linearSpace : D -> D -> Z -> valarray) (n : Z) :
  points (CarControlInputs linearSpace n)
  = map (fun ang => [dlit 1.0; ang])
        (linearSpace (dmul (dneg (dlit 0.0625)) M_PI)
                     (dmul (dlit 0.0625) M_PI) n).
Proof.
  unfold CarControlInputs. cbn [fold_left].
  now rewrite CarControlInputs_inner_loop.
Qed.

(** C5: for [n >= 1] steering angles, taking for granted that
    [linearSpace(-0.0625*M_PI, 0.0625*M_PI, n)] yields [n] values of that
    interval, [CarControlInputs(n)] holds a non-empty sequence of exactly [n]
    samples, each of dimension 2, with first component [1.0] and second
    component in the interval; reading the samples returns this sequence
    and [main] hands the sequence built for [alg_params.res] to the
    planner. *)
Theorem CarControlInputs_samples {D : Type} {A : Arith D}
    (linearSpace : D -> D -> Z -> valarray) (n : Z) :
  let lo := dmul (dneg (dlit 0.0625)) M_PI in
  let hi := dmul (dlit 0.0625) M_PI in
  1 <= n ->
  length (linearSpace lo hi n) = Z.to_nat n ->
  Forall (fun x => dleb lo x = true /\ dleb x hi = true)
         (linearSpace lo hi n) ->
  let samples := readInputs (CarControlInputs linearSpace n) in
  samples <> []
  /\ Z.of_nat (length samples) = n
  /\ Forall (fun u => length u = 2%nat /\ vget u 0 = dlit 1.0
                      /\ dleb lo (vget u 1) = true
                      /\ dleb (vget u 1) hi = true) samples
  /\ readInputs (main_controls linearSpace)
     = map (fun ang => [dlit 1.0; ang]) (linearSpace lo hi alg_params_res).
Proof.
  intros lo hi Hn Hlen Hin samples.
  assert (Hs : samples = map (fun ang => [dlit 1.0; ang]) (linearSpace lo hi n))
    by apply CarControlInputs_points.
  split; [|split; [|split]].
  - rewrite Hs. destruct (linearSpace lo hi n); [cbn in Hlen; lia|discriminate].
  - rewrite Hs, length_map, Hlen. lia.
  - rewrite Hs. apply Forall_map. revert Hin. apply Forall_impl.
    intros x [Hlo Hhi]. cbn. auto.
  - apply CarControlInputs_points.
Qed.

(** The demo's control set, with 21 evenly spaced steering angles
    (binary64). *)
Lemma CarControlInputs_samples_witness :
  Z.of_nat (length (readInputs (main_controls (A := binary64) even_spacing)))
  = 21.
Proof.
  apply (CarControlInputs_samples (A := binary64) even_spacing 21).
  - lia.
  - reflexivity.
  - apply Forall_forall. intros x Hx. apply andb_prop.
    revert x Hx. apply forallb_forall. vm_compute. reflexivity.
Defined.

Lemma sq_dist_exact (s c : list R) :
  sq_dist (A := exactR) s c
  = ((vget s 0 - vget c 0) ^ 2 + (vget s 1 - vget c 1) ^ 2)%R.
Proof.
  unfold sq_dist, sqr. cbn [dadd dsub dmul exactR]. ring.
Qed.

Lemma in_goal_exact (g : @Sphericalgoal R) (s : list R) :
  in_goal g s = true <-> inside_goal g s.
Proof.
  unfold in_goal, inside_goal. rewrite sq_dist_exact. apply Rltb_true.
Qed.

Lemma Q2R_literals :
  Q2R 0.0 = 0%R /\ Q2R 1.0 = 1%R /\ Q2R 2.0 = 2%R /\ Q2R 3.0 = 3%R
  /\ Q2R 4.0 = 4%R /\ Q2R 6.0 = 6%R /\ Q2R 8.0 = 8%R /\ Q2R 10.0 = 10%R
  /\ Q2R 0.25 = (1 / 4)%R /\ Q2R 0 = 0%R.
Proof.
  unfold Q2R. cbn. repeat split; lra.
Qed.

Lemma in_obstacle_exact (r : Z) (s : list R) :
  in_obstacle (A := exactR) (new_PlanarDemoObstacles r) s = true
  <-> hits_obstacle s.
Proof.
  unfold in_obstacle, hits_obstacle. rewrite orb_true_iff, !sq_dist_exact.
  cbn [new_PlanarDemoObstacles center1 center2 vget nth dleb dlit exactR].
  destruct Q2R_literals as (_ & _ & -> & -> & -> & -> & -> & _).
  now rewrite !Rleb_true.
Qed.

(** [std::max(0.0, x)] over the reals. *)
Lemma dmax_exact (x : R) : dmax (A := exactR) (dlit 0.0) x = Rmax 0 x.
Proof.
  unfold dmax. cbn [dltb dlit exactR].
  destruct Q2R_literals as (-> & _).
  unfold Rmax. destruct (Rle_dec 0 x) as [Hle|Hnle].
  - destruct (Rltb 0 x) eqn:Hlt; [reflexivity|].
    apply Rltb_false in Hlt. lra.
  - destruct (Rltb 0 x) eqn:Hlt; [|reflexivity].
    apply Rltb_true in Hlt. lra.
Qed.

(** [costToGo] over the reals: the distance to the goal centre less the
    radius, or [0] when that is negative. *)
Lemma costToGo_exact (h : @EuclideanHeuristic R) (s : list R) :
  costToGo h s
  = Rmax 0 (euclid (vget s 0) (vget s 1) (vget (goal h) 0) (vget (goal h) 1)
            - radius h).
Proof.
  unfold costToGo. rewrite dmax_exact. f_equal.
  unfold euclid, sqr. cbn [dadd dsub dmul dsqrt exactR].
  f_equal. f_equal. ring.
Qed.

(** ** The program runs (binary64) *)

(** The demo's goal test on the diagonal segment: ten samples, none in the
    goal, and the end of the segment left in [time]. *)
Lemma inGoal_diagonal_run :
  inGoal (A := binary64) diagonal (mkMem main_goal []) (dlit 7.0)
  = (false, dlit 5.0,
     mkMem main_goal
       [dlit 0.5; dlit 1.0; dlit 1.5; dlit 2.0; dlit 2.5;
        dlit 3.0; dlit 3.5; dlit 4.0; dlit 4.5; dlit 5.0]).
Proof. vm_compute. reflexivity. Qed.

(** A goal of squared radius [0.25] around [(2, 2)] is entered by the
    diagonal segment at the fourth sample. *)
Lemma inGoal_diagonal_hit :
  inGoal (A := binary64) diagonal
         (mkMem (new_Sphericalgoal (dlit 0.25) [dlit 2.0; dlit 2.0] 10) [])
         (dlit 7.0)
  = (true, dlit 2.0,
     mkMem (new_Sphericalgoal (dlit 0.25) [dlit 2.0; dlit 2.0] 10)
       [dlit 0.5; dlit 1.0; dlit 1.5; dlit 2.0]).
Proof. vm_compute. reflexivity. Qed.

(** The diagonal segment enters the first obstacle at the third sample. *)
Lemma collisionFree_diagonal_run :
  collisionFree (A := binary64) diagonal (mkMem main_obstacles [])
  = (false, mkMem main_obstacles [dlit 0.5; dlit 1.0; dlit 1.5]).
Proof. vm_compute. reflexivity. Qed.

(** From the start state of the demo the heuristic is [sqrt(200) - 0.5],
    between 13.64 and 13.65. *)
Lemma costToGo_start_run :
  dltb (Arith := binary64) (dlit 13.64)
       (costToGo main_heuristic [dlit 0.0; dlit 0.0; ddiv M_PI (dlit 2.0)])
  = true
  /\ dltb (Arith := binary64)
          (costToGo main_heuristic [dlit 0.0; dlit 0.0; ddiv M_PI (dlit 2.0)])
          (dlit 13.65)
     = true.
Proof. split; vm_compute; reflexivity. Qed.

(** The cost of the diagonal segment is its duration. *)
Lemma cost_diagonal_run :
  cost (A := binary64) main_performance_objective diagonal diagonal
       (dlit 0.0) (dlit 5.0)
  = dlit 5.0.
Proof. vm_compute. reflexivity. Qed.

(** In binary64 each [time += dt] rounds: the instants of the samples are
    the running sums, which can differ in the last place from the closed
    form [t0 + i * dt] that holds over the reals.  Ten steps of 0.1 from 0
    end below 1. *)
Lemma advance_binary64_rounds :
  advance (A := binary64) (dlit 0.0) (dlit 0.1) 10
  <> dadd (dlit 0.0) (dmul (of_int 10) (dlit 0.1))
  /\ dltb (advance (A := binary64) (dlit 0.0) (dlit 0.1) 10) (dlit 1.0) = true.
Proof. split; [vm_compute; discriminate | vm_compute; reflexivity]. Qed.

(** ** Further properties of the sampling loops, for every arithmetic *)

(** X1: whatever the arithmetic, [inGoal] walks the running sums
    [t0 + dt], [t0 + dt + dt], ... ([max(r, 0)] of them, with
    [dt = duration / r]) and stops at the first whose state passes the
    test: it returns true exactly when one passes; it then leaves that
    instant in [time] and has evaluated the trajectory at the instants up
    to it and nowhere else; when it returns false it has evaluated all of
    them.  It never evaluates the trajectory more than [max(r, 0)] times. *)
Theorem inGoal_running_sums {D : Type} {A : Arith D}
    (traj : InterpolatingPolynomial) (g : Sphericalgoal) (time : D) :
  let t0 := initialTime traj in
  let dt := step traj (resolution g) in
  let n := Z.to_nat (resolution g) in
  let hit := fun k : nat => in_goal g (at_ traj (advance t0 dt k)) in
  (inGoal_returns traj g time = true
   <-> exists k, (1 <= k <= n)%nat /\ hit k = true)
  /\ (inGoal_returns traj g time = true ->
      exists k, (1 <= k <= n)%nat /\ hit k = true
                /\ (forall j, (1 <= j < k)%nat -> hit j = false)
                /\ inGoal_time traj g time = advance t0 dt k
                /\ inGoal_evaluated traj g time = sample_times t0 dt k)
  /\ (inGoal_returns traj g time = false ->
      inGoal_time traj g time = advance t0 dt n
      /\ inGoal_evaluated traj g time = sample_times t0 dt n)
  /\ (length (inGoal_evaluated traj g time) <= n)%nat.
Proof.
  intros t0 dt n hit.
  unfold inGoal_returns, inGoal_time, inGoal_evaluated.
  rewrite inGoal_first_hit. cbn [this evals]. fold t0 dt n.
  pose proof (first_hit_exists (fun u => in_goal g (at_ traj u)) n t0 dt) as Hex.
  cbv beta in Hex. subst hit. cbv beta.
  destruct (first_hit (fun u => in_goal g (at_ traj u)) t0 dt n) as [k|] eqn:Hk;
    cbn [fst snd evals app].
  - pose proof Hk as Hk'. apply first_hit_Some in Hk'.
    destruct Hk' as (Hrange & Hhit & Hmin).
    split; [split; [intros _; apply Hex; eauto | reflexivity]|].
    split; [|split; [discriminate|]].
    + intros _. exists k. repeat split; try assumption; lia.
    + unfold sample_times. rewrite length_map, length_seq. lia.
  - split; [split; [discriminate | intros H; apply Hex in H;
                                       destruct H as [k H]; discriminate]|].
    split; [discriminate|]. split; [auto|].
    unfold sample_times. rewrite length_map, length_seq. lia.
Qed.

(** The diagonal segment enters a goal around [(2, 2)] at the fourth
    running sum (binary64). *)
Lemma inGoal_running_sums_witness :
  exists k, (1 <= k <= 10)%nat
    /\ inGoal_time (A := binary64) diagonal
         (new_Sphericalgoal (dlit 0.25) [dlit 2.0; dlit 2.0] 10) (dlit 7.0)
       = advance (dlit 0.0) (step diagonal 10) k.
Proof.
  pose proof (inGoal_running_sums (A := binary64) diagonal
                (new_Sphericalgoal (dlit 0.25) [dlit 2.0; dlit 2.0] 10)
                (dlit 7.0)) as (_ & Htrue & _).
  destruct Htrue as (k & Hk & _ & _ & Htime & _).
  - vm_compute. reflexivity.
  - exists k. split; [exact Hk | exact Htime].
Defined.

(** X2: whatever the arithmetic, [collisionFree] walks the same running
    sums and stops at the first whose state is in an obstacle: it returns
    false exactly when one is; it has then evaluated the trajectory at the
    instants up to that one and nowhere else; when it returns true it has
    evaluated all [max(r, 0)] of them. *)
Theorem collisionFree_running_sums {D : Type} {A : Arith D}
    (traj : InterpolatingPolynomial) (o : PlanarDemoObstacles) :
  let t0 := initialTime traj in
  let dt := step traj (obs_resolution o) in
  let n := Z.to_nat (obs_resolution o) in
  let hit := fun k : nat => in_obstacle o (at_ traj (advance t0 dt k)) in
  (collisionFree_returns traj o = false
   <-> exists k, (1 <= k <= n)%nat /\ hit k = true)
  /\ (collisionFree_returns traj o = false ->
      exists k, (1 <= k <= n)%nat /\ hit k = true
                /\ (forall j, (1 <= j < k)%nat -> hit j = false)
                /\ collisionFree_evaluated traj o = sample_times t0 dt k)
  /\ (collisionFree_returns traj o = true ->
      collisionFree_evaluated traj o = sample_times t0 dt n)
  /\ (length (collisionFree_evaluated traj o) <= n)%nat.
Proof.
  intros t0 dt n hit.
  unfold collisionFree_returns, collisionFree_evaluated.
  rewrite collisionFree_first_hit. cbn [this evals]. fold t0 dt n.
  pose proof (first_hit_exists (fun u => in_obstacle o (at_ traj u)) n t0 dt) as Hex.
  cbv beta in Hex. subst hit. cbv beta.
  destruct (first_hit (fun u => in_obstacle o (at_ traj u)) t0 dt n)
    as [k|] eqn:Hk; cbn [fst snd evals app].
  - pose proof Hk as Hk'. apply first_hit_Some in Hk'.
    destruct Hk' as (Hrange & Hhit & Hmin).
    split; [split; [intros _; apply Hex; eauto | reflexivity]|].
    split; [|split; [discriminate|]].
    + intros _. exists k. repeat split; try assumption; lia.
    + unfold sample_times. rewrite length_map, length_seq. lia.
  - split; [split; [discriminate | intros H; apply Hex in H;
                                       destruct H as [k H]; discriminate]|].
    split; [discriminate|]. split; [auto|].
    unfold sample_times. rewrite length_map, length_seq. lia.
Qed.

(** The northbound segment passes the demo's obstacles: all ten running
    sums are evaluated (binary64). *)
Lemma collisionFree_running_sums_witness :
  collisionFree_evaluated (A := binary64) northbound main_obstacles
  = sample_times (dlit 0.0) (step northbound 10) 10.
Proof.
  pose proof (collisionFree_running_sums (A := binary64) northbound
                main_obstacles) as (_ & _ & Htrue & _).
  apply Htrue. vm_compute. reflexivity.
Defined.

(** X3: when a goal and an obstacle set are built with the same
    resolution, as in [main], and [collisionFree] accepts a segment, every
    instant at which [inGoal] evaluates that segment is one that
    [collisionFree] has evaluated: the goal test looks at no state that
    has not been tested against the obstacles. *)
Theorem inGoal_evaluates_checked_states {D : Type} {A : Arith D}
    (traj : InterpolatingPolynomial) (g : Sphericalgoal)
    (o : PlanarDemoObstacles) (time : D) :
  resolution g = obs_resolution o ->
  collisionFree_returns traj o = true ->
  (exists rest, collisionFree_evaluated traj o
                = inGoal_evaluated traj g time ++ rest)
  /\ incl (inGoal_evaluated traj g time) (collisionFree_evaluated traj o).
Proof.
  intros Hres Hfree.
  assert (Hpre : exists rest, collisionFree_evaluated traj o
                              = inGoal_evaluated traj g time ++ rest).
  { revert Hfree.
    unfold collisionFree_returns, collisionFree_evaluated, inGoal_evaluated.
    rewrite collisionFree_first_hit, inGoal_first_hit. cbn [this evals].
    rewrite <- Hres.
    destruct (first_hit (fun u => in_obstacle o (at_ traj u)) _ _ _);
      cbn [fst snd evals app]; [discriminate | intros _].
    destruct (first_hit (fun u => in_goal g (at_ traj u)) _ _ _) as [k|] eqn:Hk;
      cbn [fst snd evals app].
    - apply first_hit_Some in Hk. destruct Hk as (Hk & _).
      exists (map (advance (initialTime traj) (step traj (resolution g)))
                  (seq (S k) (Z.to_nat (resolution g) - k))).
      unfold sample_times. rewrite <- map_app, <- seq_app. do 2 f_equal. lia.
    - exists []. now rewrite app_nil_r. }
  split; [exact Hpre|].
  destruct Hpre as [rest ->]. apply incl_appl, incl_refl.
Qed.

(** The northbound segment with the objects of [main] (binary64). *)
Lemma inGoal_evaluates_checked_states_witness :
  incl (inGoal_evaluated (A := binary64) northbound main_goal (dlit 7.0))
       (collisionFree_evaluated northbound main_obstacles).
Proof.
  pose proof (inGoal_evaluates_checked_states (A := binary64) northbound
                main_goal main_obstacles (dlit 7.0)) as Hchecked.
  apply Hchecked.
  - reflexivity.
  - vm_compute. reflexivity.
Defined.

(** ** Not-a-number and rounding (binary64) *)

Lemma SFadd_nan_r (x : spec_float) : SFadd 53 1024 x S754_nan = S754_nan.
Proof. now destruct x. Qed.

Lemma SFsub_nan_r (x : spec_float) : SFsub 53 1024 x S754_nan = S754_nan.
Proof. now destruct x. Qed.

(** The squared distance of a state with a NaN coordinate is a NaN. *)
Lemma sq_dist_nan (s c : @valarray spec_float) :
  vget s 0 = S754_nan \/ vget s 1 = S754_nan ->
  sq_dist (A := binary64) s c = S754_nan.
Proof.
  unfold sq_dist, sqr. cbn [dadd dsub dmul binary64].
  intros [-> | ->]; cbn [SFsub SFmul SFadd]; [reflexivity|].
  apply SFadd_nan_r.
Qed.

(** X4: in binary64 a sampled state with a NaN coordinate fails every
    comparison: on a segment whose states all have a NaN among their first
    two coordinates, [inGoal] returns false and [collisionFree] returns
    true, whatever the goal, the obstacles and the resolution: such a
    segment is taken to be collision-free. *)
Theorem nan_states_pass_unnoticed
    (traj : @InterpolatingPolynomial spec_float)
    (g : @Sphericalgoal spec_float) (o : @PlanarDemoObstacles spec_float)
    (time : spec_float) :
  (forall t, vget (at_ traj t) 0 = S754_nan \/ vget (at_ traj t) 1 = S754_nan)
  ->
  inGoal_returns (A := binary64) traj g time = false
  /\ collisionFree_returns (A := binary64) traj o = true.
Proof.
  intros Hnan. unfold inGoal_returns, collisionFree_returns.
  rewrite inGoal_first_hit, collisionFree_first_hit. cbn [this evals].
  split.
  - destruct (first_hit _ _ _ (Z.to_nat (resolution g))) as [k|] eqn:Hk;
      [|reflexivity].
    apply first_hit_Some in Hk. destruct Hk as (_ & Hin & _).
    unfold in_goal in Hin. rewrite sq_dist_nan in Hin by apply Hnan.
    discriminate.
  - destruct (first_hit _ _ _ (Z.to_nat (obs_resolution o))) as [k|] eqn:Hk;
      [|reflexivity].
    apply first_hit_Some in Hk. destruct Hk as (_ & Hin & _).
    unfold in_obstacle in Hin. rewrite !sq_dist_nan in Hin by apply Hnan.
    discriminate.
Qed.

(** The objects of [main] on a segment that has lost its first
    coordinate. *)
Lemma nan_states_pass_unnoticed_witness :
  inGoal_returns (A := binary64) lost_segment main_goal (dlit 7.0) = false
  /\ collisionFree_returns (A := binary64) lost_segment main_obstacles = true.
Proof.
  apply (nan_states_pass_unnoticed lost_segment main_goal main_obstacles).
  intros t. left. reflexivity.
Defined.

(** X5: in binary64 the heuristic of a state with a NaN among its first two
    coordinates is [0.0], the value it has inside the goal:
    [std::max(0.0, NaN)] returns its first argument. *)
Theorem costToGo_nan_state (h : @EuclideanHeuristic spec_float)
    (s : @valarray spec_float) :
  vget s 0 = S754_nan \/ vget s 1 = S754_nan ->
  costToGo (A := binary64) h s = dlit 0.0.
Proof.
  intros Hnan. unfold costToGo, sqr, dmax.
  cbn [dadd dsub dmul dsqrt dltb binary64].
  assert (Hsum : SFadd 53 1024
            (SFmul 53 1024 (SFsub 53 1024 (vget (goal h) 0) (vget s 0))
                           (SFsub 53 1024 (vget (goal h) 0) (vget s 0)))
            (SFmul 53 1024 (SFsub 53 1024 (vget (goal h) 1) (vget s 1))
                           (SFsub 53 1024 (vget (goal h) 1) (vget s 1)))
          = S754_nan).
  { destruct Hnan as [-> | ->]; rewrite SFsub_nan_r; cbn [SFmul SFadd];
      [reflexivity | apply SFadd_nan_r]. }
  rewrite Hsum. reflexivity.
Qed.

(** The heuristic of [main] at a state that has lost its first
    coordinate. *)
Lemma costToGo_nan_state_witness :
  costToGo (A := binary64) main_heuristic [S754_nan; dlit 3.0; dlit 0.0]
  = dlit 0.0.
Proof.
  apply (costToGo_nan_state main_heuristic [S754_nan; dlit 3.0; dlit 0.0]).
  left. reflexivity.
Defined.

(** ** The instants evaluated, for every arithmetic *)

(** Every instant at which a loop evaluates the trajectory is a running
    sum. *)
Lemma inGoal_evaluated_rank {D : Type} {A : Arith D}
    (traj : InterpolatingPolynomial) (g : Sphericalgoal) (time u : D) :
  In u (inGoal_evaluated traj g time) ->
  exists k, (1 <= k <= Z.to_nat (resolution g))%nat
            /\ u = advance (initialTime traj) (step traj (resolution g)) k.
Proof.
  unfold inGoal_evaluated. rewrite inGoal_first_hit. cbn [this evals].
  destruct (first_hit _ _ _ (Z.to_nat (resolution g))) as [k|] eqn:Hk;
    cbn [snd evals app]; intros Hu; apply in_sample_times in Hu;
    destruct Hu as [j [Hj ->]]; exists j; (split; [|reflexivity]).
  - apply first_hit_Some in Hk. lia.
  - exact Hj.
Qed.

Lemma collisionFree_evaluated_rank {D : Type} {A : Arith D}
    (traj : InterpolatingPolynomial) (o : PlanarDemoObstacles) (u : D) :
  In u (collisionFree_evaluated traj o) ->
  exists k, (1 <= k <= Z.to_nat (obs_resolution o))%nat
            /\ u = advance (initialTime traj) (step traj (obs_resolution o)) k.
Proof.
  unfold collisionFree_evaluated. rewrite collisionFree_first_hit.
  cbn [this evals].
  destruct (first_hit _ _ _ (Z.to_nat (obs_resolution o))) as [k|] eqn:Hk;
    cbn [snd evals app]; intros Hu; apply in_sample_times in Hu;
    destruct Hu as [j [Hj ->]]; exists j; (split; [|reflexivity]).
  - apply first_hit_Some in Hk. lia.
  - exact Hj.
Qed.

(** ** Away from the thresholds: the disks of [main] over the reals *)

(** X10: a goal and a heuristic built as [main] builds them, from the same
    centre and with the square root of the squared radius as radius, agree
    over the reals: at the state that [inGoal] reports as inside the goal
    the heuristic is 0. *)
Theorem costToGo_zero_where_inGoal (rho : R) (c : list R) (r : Z)
    (traj : @InterpolatingPolynomial R) (time : R) :
  let g := new_Sphericalgoal rho c r in
  let h := new_EuclideanHeuristic c (dsqrt (Arith := exactR) rho) in
  inGoal_returns traj g time = true ->
  costToGo h (at_ traj (inGoal_time traj g time)) = 0%R.
Proof.
  intros g h. unfold inGoal_returns, inGoal_time.
  rewrite inGoal_first_hit. cbn [this evals].
  destruct (first_hit _ _ _ (Z.to_nat (resolution g))) as [k|] eqn:Hk;
    cbn [fst snd]; [intros _ | discriminate].
  apply first_hit_Some in Hk. destruct Hk as (_ & Hin & _).
  apply in_goal_exact in Hin. unfold inside_goal in Hin.
  set (s := at_ traj (advance (initialTime traj)
                              (step traj (resolution g)) k)) in * .
  rewrite costToGo_exact.
  cbn [h g new_EuclideanHeuristic new_Sphericalgoal goal radius center
       radius_sqr dsqrt exactR] in * .
  apply Rmax_left.
  assert (Hlt : (euclid (vget s 0) (vget s 1) (vget c 0) (vget c 1)
                 < sqrt rho)%R); [|lra].
  unfold euclid. apply sqrt_lt_1_alt. split; [|exact Hin].
  apply Rplus_le_le_0_compat; apply pow2_ge_0.
Qed.

(** A vehicle standing on the goal centre of [main] is in the goal, over
    the reals. *)
Lemma standing_on_goal_centre (time : R) :
  inGoal_returns (A := exactR) (standing (dlit 10.0) (dlit 10.0)) main_goal
                 time = true.
Proof.
  assert (Hin : in_goal (A := exactR) main_goal
                  [dlit 10.0; dlit 10.0; dlit 0.0] = true).
  { apply in_goal_exact.
    unfold inside_goal, main_goal, goal_center, goal_radius_sqr.
    cbn [new_Sphericalgoal center radius_sqr vget nth dlit exactR].
    destruct Q2R_literals as (_ & _ & _ & _ & _ & _ & _ & -> & -> & _).
    lra. }
  unfold inGoal_returns. rewrite inGoal_first_hit. cbn [this evals].
  destruct (first_hit _ _ _ (Z.to_nat (resolution main_goal))) as [k|] eqn:Hk;
    [reflexivity|].
  exfalso. rewrite first_hit_None in Hk.
  specialize (Hk 1%nat ltac:(cbn; lia)). cbv beta in Hk.
  change (at_ (standing (dlit 10.0) (dlit 10.0)) _)
    with [dlit (Arith := exactR) 10.0; dlit 10.0; dlit 0.0] in Hk.
  congruence.
Qed.

(** The heuristic of [main] vanishes where the goal of [main] is found. *)
Lemma costToGo_zero_where_inGoal_witness :
  costToGo (A := exactR) main_heuristic
    (at_ (standing (dlit 10.0) (dlit 10.0))
         (inGoal_time (A := exactR) (standing (dlit 10.0) (dlit 10.0))
                      main_goal 7%R))
  = 0%R.
Proof.
  apply (costToGo_zero_where_inGoal goal_radius_sqr goal_center 10
           (standing (dlit 10.0) (dlit 10.0)) 7%R).
  apply standing_on_goal_centre.
Defined.

(** X14: the goal of [main] lies clear of its obstacles: over the reals, no
    state passes both the goal test and the obstacle test. *)
Theorem main_goal_clear_of_obstacles (s : list R) :
  in_goal (A := exactR) main_goal s = true ->
  in_obstacle (A := exactR) main_obstacles s = false.
Proof.
  intros Hin. apply in_goal_exact in Hin.
  destruct (in_obstacle main_obstacles s) eqn:Hobs; [exfalso | reflexivity].
  apply in_obstacle_exact in Hobs.
  unfold inside_goal, main_goal, goal_center, goal_radius_sqr in Hin.
  cbn [new_Sphericalgoal center radius_sqr vget nth dlit exactR] in Hin.
  destruct Q2R_literals as (_ & _ & _ & _ & _ & _ & _ & Hq10 & Hq25 & _).
  rewrite Hq10, Hq25 in Hin.
  unfold hits_obstacle in Hobs. unfold vget in Hobs, Hin.
  cbn [dlit exactR] in Hobs, Hin.
  set (px := nth 0 s (Q2R 0)) in Hin, Hobs.
  set (py := nth 1 s (Q2R 0)) in Hin, Hobs.
  assert (Hin' : ((px - 10) * (px - 10) + (py - 10) * (py - 10) < 1 / 4)%R)
    by (eapply Rle_lt_trans; [|exact Hin]; apply Req_le; ring).
  pose proof (Rle_0_sqr (px - 10)) as Hx2.
  pose proof (Rle_0_sqr (py - 10)) as Hy2.
  unfold Rsqr in Hx2, Hy2.
  assert (Hx : (- (1 / 2) < px - 10)%R).
  { destruct (Rlt_dec (- (1 / 2)) (px - 10)) as [|Hn]; [assumption|].
    exfalso. assert (Hm : (px - 10 - 1 / 2 <= 0)%R) by lra.
    assert (Hp : (px - 10 + 1 / 2 <= 0)%R) by lra.
    nra. }
  assert (Hy : (- (1 / 2) < py - 10)%R).
  { destruct (Rlt_dec (- (1 / 2)) (py - 10)) as [|Hn]; [assumption|].
    exfalso. assert (Hm : (py - 10 - 1 / 2 <= 0)%R) by lra.
    assert (Hp : (py - 10 + 1 / 2 <= 0)%R) by lra.
    nra. }
  assert (Hexp : forall cx cy : R,
            ((px - cx) ^ 2 + (py - cy) ^ 2
             = (px - 10) * (px - 10) + (py - 10) * (py - 10)
               + 2 * (10 - cx) * (px - 10) + 2 * (10 - cy) * (py - 10)
               + (10 - cx) * (10 - cx) + (10 - cy) * (10 - cy))%R)
    by (intros; ring).
  destruct Hobs as [Hobs | Hobs]; rewrite Hexp in Hobs; lra.
Qed.

(** The goal centre of [main] is in no obstacle. *)
Lemma main_goal_clear_of_obstacles_witness :
  in_obstacle (A := exactR) main_obstacles [10; 10; 0]%R = false.
Proof.
  apply (main_goal_clear_of_obstacles [10; 10; 0]%R).
  apply in_goal_exact.
  unfold inside_goal, main_goal, goal_center, goal_radius_sqr.
  cbn [new_Sphericalgoal center radius_sqr vget nth dlit exactR].
  destruct Q2R_literals as (_ & _ & _ & _ & _ & _ & _ & -> & -> & _).
  lra.
Defined.

(** ** The control set, for every arithmetic *)

(** X16: whatever [linearSpace] yields, [CarControlInputs] holds one sample
    per steering angle, in the order of the angles, the sample of rank [i]
    being [(1.0, angle i)]: there are as many samples as angles (none when
    there is no angle), and angles that are pairwise distinct give samples
    that are pairwise distinct. *)
Theorem CarControlInputs_one_sample_per_angle {D : Type} {A : Arith D}
    (linearSpace : D -> D -> Z -> valarray) (n : Z) :
  let angles := linearSpace (dmul (dneg (dlit 0.0625)) M_PI)
                            (dmul (dlit 0.0625) M_PI) n in
  let samples := readInputs (CarControlInputs linearSpace n) in
  length samples = length angles
  /\ (forall i, (i < length angles)%nat ->
        nth i samples [] = [dlit 1.0; nth i angles (dlit 0)])
  /\ (angles = [] -> samples = [])
  /\ (NoDup angles -> NoDup samples).
Proof.
  intros angles samples.
  assert (Hs : samples = map (fun ang => [dlit 1.0; ang]) angles)
    by apply CarControlInputs_points.
  rewrite Hs. clear Hs. split; [apply length_map|]. split; [|split].
  - intros i Hi.
    rewrite (nth_indep _ [] ((fun ang => [dlit 1.0; ang]) (dlit 0)))
      by (rewrite length_map; exact Hi).
    exact (map_nth (fun ang => [dlit 1.0; ang]) angles (dlit 0) i).
  - intros ->. reflexivity.
  - intros Hnd. induction Hnd as [|a l Hnotin Hnd IH]; cbn [map].
    + constructor.
    + constructor; [|exact IH].
      intros Hin. apply in_map_iff in Hin. destruct Hin as [b [[= ->] Hb]].
      contradiction.
Qed.

(** The 21 evenly spaced steering angles of the demo give 21 samples, the
    first with the steering angle [-0.0625 * M_PI] (binary64). *)
Lemma CarControlInputs_one_sample_per_angle_witness :
  nth 0 (readInputs (main_controls (A := binary64) even_spacing)) []
  = [dlit 1.0; dmul (dneg (dlit 0.0625)) M_PI].
Proof.
  pose proof (CarControlInputs_one_sample_per_angle (A := binary64)
                even_spacing 21) as (_ & Hnth & _).
  unfold main_controls, alg_params_res.
  rewrite (Hnth 0%nat); [|vm_compute; lia].
  vm_compute. reflexivity.
Defined.

(** ** The sampling loops walk running sums, not the closed form *)

(** C1 (counterexample): two runs of [inGoal] in binary64 with the goal of
    [main] (resolution 10).  On a segment of duration 4 that begins at
    [1e16] the step 0.4 is absorbed by every addition: the closed-form
    instant [t0 + 10 * delta] of the tenth sample is the end of the segment,
    where the state is the goal centre, yet [inGoal] returns false, having
    evaluated the trajectory ten times at [t0] itself.  On a segment of
    duration 0 the trajectory is evaluated at [t0] as well. *)
Lemma inGoal_misses_closed_form_sample :
  let traj := late_segment [dlit 0.0; dlit 0.0; dlit 0.0]
                           [dlit 10.0; dlit 10.0; dlit 0.0] in
  let t0 := initialTime traj in
  let delta := step traj (resolution main_goal) in
  (1 <= resolution (D := spec_float) main_goal
   /\ dltb (dlit 0.0) (duration traj) = true
   /\ in_goal main_goal (at_ traj (dadd t0 (dmul (of_int 10) delta))) = true
   /\ inGoal_returns traj main_goal (dlit 7.0) = false
   /\ inGoal_evaluated traj main_goal (dlit 7.0) = repeat t0 10)
  /\ In (initialTime (standing (A := binary64) (dlit 10.0) (dlit 10.0)))
        (inGoal_evaluated (standing (dlit 10.0) (dlit 10.0)) main_goal
                          (dlit 7.0)).
Proof.
  cbv zeta. split; [split; [|split; [|split; [|split]]]|].
  - cbn. lia.
  - vm_compute. reflexivity.
  - vm_compute. reflexivity.
  - vm_compute. reflexivity.
  - vm_compute. reflexivity.
  - vm_compute. left. reflexivity.
Qed.

(** C1 (amended): with a resolution [r >= 1], [inGoal] tests the states at
    the running sums [T 1], ..., [T r], where [T 0 = t0], [T i] is
    [T (i-1) + delta] as the arithmetic computes it, and [delta] is
    [numberOfIntervals * intervalLength / r].  It returns true exactly when
    one of these states passes the test
    [(s[0]-c[0])^2 + (s[1]-c[1])^2 < radius_sqr]; the instant it then
    leaves in [time] is [T i] for the least such [i].  The trajectory is
    evaluated at [T 1], and only at instants [T i] with [1 <= i <= r]: at
    [t0] itself only when one of these running sums is [t0]. *)
Theorem inGoal_first_sample_in_goal {D : Type} {A : Arith D}
    (rho : D) (c : valarray) (r : Z) (traj : InterpolatingPolynomial)
    (time : D) :
  1 <= r ->
  let g := new_Sphericalgoal rho c r in
  let t0 := initialTime traj in
  let delta :=
    ddiv (dmul (of_int (numberOfIntervals traj)) (intervalLength traj))
         (of_int r) in
  let T := fun i : nat => advance t0 delta i in
  let inside := fun i : nat =>
    dltb (dadd (sqr (dsub (vget (at_ traj (T i)) 0) (vget c 0)))
               (sqr (dsub (vget (at_ traj (T i)) 1) (vget c 1))))
         rho = true in
  (inGoal_returns traj g time = true
   <-> exists i, (1 <= i <= Z.to_nat r)%nat /\ inside i)
  /\ (inGoal_returns traj g time = true ->
      exists i, (1 <= i <= Z.to_nat r)%nat /\ inside i
                /\ (forall j, (1 <= j < i)%nat -> ~ inside j)
                /\ inGoal_time traj g time = T i)
  /\ In (T 1%nat) (inGoal_evaluated traj g time)
  /\ (forall u, In u (inGoal_evaluated traj g time) ->
      exists i, (1 <= i <= Z.to_nat r)%nat /\ u = T i)
  /\ ((forall i, (1 <= i <= Z.to_nat r)%nat -> T i <> t0) ->
      ~ In t0 (inGoal_evaluated traj g time)).
Proof.
  intros Hr g t0 delta T inside.
  assert (Hrank : forall u, In u (inGoal_evaluated traj g time) ->
                  exists i, (1 <= i <= Z.to_nat r)%nat /\ u = T i).
  { intros u Hu. apply (inGoal_evaluated_rank traj g time u Hu). }
  split; [|split; [|split; [|split]]].
  - unfold inGoal_returns. rewrite inGoal_first_hit. cbn [this].
    pose proof (first_hit_exists (fun u => in_goal g (at_ traj u))
                  (Z.to_nat r) t0 delta) as Hex.
    change (resolution g) with r. fold t0.
    change (step traj r) with delta.
    destruct (first_hit (fun u => in_goal g (at_ traj u)) t0 delta (Z.to_nat r))
      as [k|] eqn:Hk; cbn [fst].
    + split; [intros _; apply Hex; eauto | reflexivity].
    + split; [discriminate|]. intros H. apply Hex in H.
      destruct H as [k H]. discriminate.
  - unfold inGoal_returns, inGoal_time. rewrite inGoal_first_hit. cbn [this].
    change (resolution g) with r. fold t0.
    change (step traj r) with delta.
    destruct (first_hit (fun u => in_goal g (at_ traj u)) t0 delta (Z.to_nat r))
      as [k|] eqn:Hk; cbn [fst snd]; [intros _ | discriminate].
    apply first_hit_Some in Hk. destruct Hk as (Hrange & Hhit & Hmin).
    exists k. split; [lia|]. split; [exact Hhit|]. split; [|reflexivity].
    intros j Hj Hin. specialize (Hmin j Hj).
    unfold inside, T in Hin. unfold in_goal, sq_dist, g in Hmin.
    cbn [center radius_sqr new_Sphericalgoal] in Hmin.
    rewrite Hin in Hmin. discriminate.
  - apply (inGoal_evaluates_first_step traj g time Hr).
  - exact Hrank.
  - intros Hne Hin. destruct (Hrank t0 Hin) as (i & Hi & Heq).
    apply (Hne i Hi). symmetry. exact Heq.
Qed.

(** The diagonal segment and a goal around [(2, 2)] with resolution 10
    (binary64): no running sum is the initial time, which is therefore not
    evaluated. *)
Lemma inGoal_first_sample_in_goal_witness :
  1 <= 10
  /\ ~ In (initialTime (diagonal (A := binary64)))
          (inGoal_evaluated diagonal
             (new_Sphericalgoal (dlit 0.25) [dlit 2.0; dlit 2.0] 10)
             (dlit 7.0)).
Proof.
  split; [lia|].
  pose proof (inGoal_first_sample_in_goal (A := binary64) (dlit 0.25)
                [dlit 2.0; dlit 2.0] 10 diagonal (dlit 7.0) ltac:(lia))
    as (_ & _ & _ & _ & Hnot).
  apply Hnot. intros i Hi.
  assert (Hin : In i (seq 1 10)) by (apply in_seq; cbn in Hi; lia).
  clear Hi. revert i Hin. apply Forall_forall.
  repeat constructor; vm_compute; discriminate.
Defined.

(** C2 (counterexample): two runs of [collisionFree] in binary64 with the
    obstacles of [main] (resolution 10).  On a segment of duration 4 that
    begins at [1e16] the closed-form instant [t0 + 10 * delta] of the tenth
    sample is the end of the segment, where the state is the centre of the
    first obstacle, yet [collisionFree] returns true, having evaluated the
    trajectory ten times at [t0] itself.  On a segment of duration 0 the
    trajectory is evaluated at [t0] as well. *)
Lemma collisionFree_misses_closed_form_sample :
  let traj := late_segment [dlit 0.0; dlit 0.0; dlit 0.0]
                           [dlit 3.0; dlit 2.0; dlit 0.0] in
  let t0 := initialTime traj in
  let delta := step traj (obs_resolution main_obstacles) in
  (1 <= obs_resolution (D := spec_float) main_obstacles
   /\ dltb (dlit 0.0) (duration traj) = true
   /\ in_obstacle main_obstacles
        (at_ traj (dadd t0 (dmul (of_int 10) delta))) = true
   /\ collisionFree_returns traj main_obstacles = true
   /\ collisionFree_evaluated traj main_obstacles = repeat t0 10)
  /\ In (initialTime (standing (A := binary64) (dlit 10.0) (dlit 10.0)))
        (collisionFree_evaluated (standing (dlit 10.0) (dlit 10.0))
                                 main_obstacles).
Proof.
  cbv zeta. split; [split; [|split; [|split; [|split]]]|].
  - cbn. lia.
  - vm_compute. reflexivity.
  - vm_compute. reflexivity.
  - vm_compute. reflexivity.
  - vm_compute. reflexivity.
  - vm_compute. left. reflexivity.
Qed.

(** C2 (amended): with a resolution [r >= 1], [collisionFree] tests the
    states at the running sums [T 1], ..., [T r] ([T 0 = t0], [T i] is
    [T (i-1) + delta] as the arithmetic computes it, [delta] is
    [numberOfIntervals * intervalLength / r]).  It returns false exactly
    when one of these states is at squared planar distance at most 4.0
    from [(3, 2)] or from [(6, 8)], and true otherwise.  The trajectory is
    evaluated at [T 1], and only at instants [T i] with [1 <= i <= r]: at
    [t0] itself only when one of these running sums is [t0]. *)
Theorem collisionFree_no_sample_in_obstacle {D : Type} {A : Arith D}
    (r : Z) (traj : InterpolatingPolynomial) :
  1 <= r ->
  let o := new_PlanarDemoObstacles r in
  let t0 := initialTime traj in
  let delta :=
    ddiv (dmul (of_int (numberOfIntervals traj)) (intervalLength traj))
         (of_int r) in
  let T := fun i : nat => advance t0 delta i in
  let near := fun (cx cy : D) (i : nat) =>
    dleb (dadd (sqr (dsub (vget (at_ traj (T i)) 0) cx))
               (sqr (dsub (vget (at_ traj (T i)) 1) cy)))
         (dlit 4.0) = true in
  let struck := fun i : nat =>
    near (dlit 3.0) (dlit 2.0) i \/ near (dlit 6.0) (dlit 8.0) i in
  (collisionFree_returns traj o = false
   <-> exists i, (1 <= i <= Z.to_nat r)%nat /\ struck i)
  /\ (collisionFree_returns traj o = true
      <-> forall i, (1 <= i <= Z.to_nat r)%nat -> ~ struck i)
  /\ In (T 1%nat) (collisionFree_evaluated traj o)
  /\ (forall u, In u (collisionFree_evaluated traj o) ->
      exists i, (1 <= i <= Z.to_nat r)%nat /\ u = T i)
  /\ ((forall i, (1 <= i <= Z.to_nat r)%nat -> T i <> t0) ->
      ~ In t0 (collisionFree_evaluated traj o)).
Proof.
  intros Hr o t0 delta T near struck.
  assert (Hrank : forall u, In u (collisionFree_evaluated traj o) ->
                  exists i, (1 <= i <= Z.to_nat r)%nat /\ u = T i).
  { intros u Hu. apply (collisionFree_evaluated_rank traj o u Hu). }
  assert (Hstruck : forall i,
             in_obstacle o (at_ traj (advance t0 delta i)) = true
             <-> struck i).
  { intros i. unfold in_obstacle. rewrite orb_true_iff. reflexivity. }
  assert (Hfalse : collisionFree_returns traj o = false
                   <-> exists i, (1 <= i <= Z.to_nat r)%nat /\ struck i).
  { unfold collisionFree_returns. rewrite collisionFree_first_hit.
    cbn [this].
    pose proof (first_hit_exists (fun u => in_obstacle o (at_ traj u))
                  (Z.to_nat r) t0 delta) as Hex.
    cbv beta in Hex.
    change (obs_resolution o) with r. fold t0.
    change (step traj r) with delta.
    destruct (first_hit (fun u => in_obstacle o (at_ traj u)) t0 delta
                (Z.to_nat r)) as [k|] eqn:Hk; cbn [fst].
    - split; [intros _ | reflexivity].
      assert (Hsome : exists i, Some k = Some i) by eauto.
      apply Hex in Hsome. destruct Hsome as (i & Hi & Hhit).
      exists i. split; [exact Hi | apply Hstruck, Hhit].
    - split; [discriminate|]. intros (i & Hi & Hs).
      assert (Hnone : exists j, @None nat = Some j).
      { apply Hex. exists i. split; [exact Hi | apply Hstruck, Hs]. }
      destruct Hnone as [j Hj]. discriminate. }
  split; [exact Hfalse|]. split; [|split; [|split]].
  - split.
    + intros Htrue i Hi Hs.
      assert (Hf : collisionFree_returns traj o = false)
        by (apply Hfalse; eauto).
      congruence.
    + intros Hnone. destruct (collisionFree_returns traj o) eqn:Hret;
        [reflexivity|].
      destruct (proj1 Hfalse eq_refl) as (i & Hi & Hs).
      destruct (Hnone i Hi Hs).
  - apply (collisionFree_evaluates_first_step traj o Hr).
  - exact Hrank.
  - intros Hne Hin. destruct (Hrank t0 Hin) as (i & Hi & Heq).
    apply (Hne i Hi). symmetry. exact Heq.
Qed.

(** The diagonal segment and obstacles with resolution 10 (binary64): the
    segment enters the first obstacle, and the initial time is not
    evaluated. *)
Lemma collisionFree_no_sample_in_obstacle_witness :
  1 <= 10
  /\ collisionFree_returns (A := binary64) diagonal
       (new_PlanarDemoObstacles 10) = false
  /\ ~ In (initialTime (diagonal (A := binary64)))
          (collisionFree_evaluated diagonal (new_PlanarDemoObstacles 10)).
Proof.
  split; [lia|].
  pose proof (collisionFree_no_sample_in_obstacle (A := binary64) 10 diagonal
                ltac:(lia)) as (Hfalse & _ & _ & _ & Hnot).
  split.
  - apply Hfalse. exists 3%nat. split; [cbn; lia|].
    left. vm_compute. reflexivity.
  - apply Hnot. intros i Hi.
    assert (Hin : In i (seq 1 10)) by (apply in_seq; cbn in Hi; lia).
    clear Hi. revert i Hin. apply Forall_forall.
    repeat constructor; vm_compute; discriminate.
Defined.

(** C9 (counterexample): three runs of [inGoal] in binary64 that return
    false and do not leave the end of the segment in [time].  With the goal
    of [main] (resolution 10) and a segment of length 0.3 from time 0, ten
    additions of the step end above [t0 + D]; on a segment of duration 4
    from [1e16] they end at [t0]; and with a resolution of 0 nothing is
    added to [t0]. *)
Lemma inGoal_time_is_not_segment_end :
  let tf := fun traj : @InterpolatingPolynomial spec_float =>
    dadd (initialTime traj) (duration traj) in
  let far := late_segment [dlit 0.0; dlit 0.0; dlit 0.0]
                          [dlit 0.0; dlit 0.0; dlit 0.0] in
  let g0 := new_Sphericalgoal (goal_radius_sqr (A := binary64)) goal_center 0 in
  (1 <= resolution (D := spec_float) main_goal
   /\ inGoal_returns (A := binary64) short_hop main_goal (dlit 7.0) = false
   /\ inGoal_time short_hop main_goal (dlit 7.0) <> tf short_hop
   /\ dltb (tf short_hop) (inGoal_time short_hop main_goal (dlit 7.0)) = true)
  /\ (inGoal_returns far main_goal (dlit 7.0) = false
      /\ inGoal_time far main_goal (dlit 7.0) = initialTime far
      /\ dltb (inGoal_time far main_goal (dlit 7.0)) (tf far) = true)
  /\ (inGoal_returns (A := binary64) diagonal g0 (dlit 7.0) = false
      /\ inGoal_time diagonal g0 (dlit 7.0) = initialTime diagonal
      /\ dltb (inGoal_time diagonal g0 (dlit 7.0)) (tf diagonal) = true).
Proof.
  cbv zeta.
  split; [split; [cbn; lia | split; [|split]]
         | split; [split; [|split] | split; [|split]]];
    try (vm_compute; reflexivity).
  vm_compute. discriminate.
Qed.

(** C9 (amended): [inGoal] always overwrites the caller's [time]: what it
    leaves there does not depend on what was there, so of two different
    values at most one is left as it was.  It starts from [t0] and adds
    [delta] before each sample, so when it returns false the variable holds
    the running sum [T r] reached from [t0] by [r] additions of [delta] as
    the arithmetic computes them: with [r >= 1] this is the last instant at
    which the trajectory was evaluated, with [r <= 0] it is [t0]. *)
Theorem inGoal_leaves_last_running_sum {D : Type} {A : Arith D}
    (traj : InterpolatingPolynomial) (g : Sphericalgoal) (time : D) :
  let r := resolution g in
  let t0 := initialTime traj in
  let delta :=
    ddiv (dmul (of_int (numberOfIntervals traj)) (intervalLength traj))
         (of_int r) in
  (forall time', inGoal_time traj g time' = inGoal_time traj g time)
  /\ (forall time', time' <> time ->
      ~ (inGoal_time traj g time = time
         /\ inGoal_time traj g time' = time'))
  /\ (inGoal_returns traj g time = false ->
      inGoal_time traj g time = advance t0 delta (Z.to_nat r)
      /\ (1 <= r ->
          inGoal_time traj g time
          = dadd (advance t0 delta (Z.to_nat r - 1)) delta
          /\ inGoal_evaluated traj g time
             = sample_times t0 delta (Z.to_nat r - 1)
               ++ [inGoal_time traj g time])
      /\ (r <= 0 -> inGoal_time traj g time = t0)).
Proof.
  intros r t0 delta.
  assert (Hsame : forall time',
             inGoal_time traj g time' = inGoal_time traj g time)
    by reflexivity.
  split; [exact Hsame|]. split.
  - intros time' Hne [Hkept Hkept']. apply Hne.
    exact (eq_trans (eq_sym Hkept') (eq_trans (Hsame time') Hkept)).
  - intros Hret.
    assert (Htime : inGoal_time traj g time = advance t0 delta (Z.to_nat r)).
    { revert Hret. unfold inGoal_returns, inGoal_time.
      rewrite inGoal_first_hit. cbn [this].
      destruct (first_hit _ _ _ _); cbn [fst snd];
        [discriminate | reflexivity]. }
    assert (Hevals : inGoal_evaluated traj g time
                     = sample_times t0 delta (Z.to_nat r)).
    { revert Hret. unfold inGoal_returns, inGoal_evaluated.
      rewrite inGoal_first_hit. cbn [this evals].
      destruct (first_hit _ _ _ _); cbn [fst snd evals app];
        [discriminate | reflexivity]. }
    split; [exact Htime | split].
    + intros Hr. rewrite Htime, Hevals.
      destruct (Z.to_nat r) as [|n] eqn:Hn; [lia|].
      replace (S n - 1)%nat with n by lia.
      split.
      * unfold advance. cbn [Nat.iter nat_rect]. reflexivity.
      * unfold sample_times. rewrite seq_S, map_app. reflexivity.
    + intros Hr. rewrite Htime.
      replace (Z.to_nat r) with 0%nat by lia. reflexivity.
Qed.

(** The segment of length 0.3 with the goal of [main] (binary64): [inGoal]
    returns false and leaves the tenth running sum in [time], not the 7.0
    it was called with. *)
Lemma inGoal_leaves_last_running_sum_witness :
  inGoal_returns (A := binary64) short_hop main_goal (dlit 7.0) = false
  /\ inGoal_time (A := binary64) short_hop main_goal (dlit 7.0)
     = advance (dlit 0.0) (ddiv (dmul (of_int 1) (dlit 0.3)) (of_int 10)) 10
  /\ inGoal_time (A := binary64) short_hop main_goal (dlit 7.0) <> dlit 7.0.
Proof.
  assert (Hret : inGoal_returns (A := binary64) short_hop main_goal (dlit 7.0)
                 = false) by (vm_compute; reflexivity).
  split; [exact Hret|].
  pose proof (inGoal_leaves_last_running_sum (A := binary64) short_hop
                main_goal (dlit 7.0)) as (_ & _ & Hfalse).
  destruct (Hfalse Hret) as (Htime & _).
  split; [exact Htime|].
  vm_compute. discriminate.
Defined.

(** X6: in binary64 the sampling leaves the segment.  For the segment of
    one interval of length 0.3 that begins at time 0 and the resolution 10
    of [main], the tenth running sum lies above the end [t0 + D] of the
    segment; it is the instant [inGoal] leaves in [time], and both
    [inGoal] and [collisionFree] evaluate the trajectory there. *)
Theorem sampling_overshoots_binary64 :
  let t0 := initialTime (short_hop (A := binary64)) in
  let tf := dadd t0 (dmul (of_int (numberOfIntervals (short_hop (A := binary64))))
                          (intervalLength (short_hop (A := binary64)))) in
  let last_sample := inGoal_time short_hop main_goal (dlit 7.0) in
  t0 = dlit 0.0
  /\ tf = dlit 0.3
  /\ dltb tf last_sample = true
  /\ In last_sample (inGoal_evaluated short_hop main_goal (dlit 7.0))
  /\ In last_sample (collisionFree_evaluated short_hop main_obstacles).
Proof.
  cbv zeta. split; [reflexivity|]. split; [vm_compute; reflexivity|].
  split; [vm_compute; reflexivity|].
  split; vm_compute; do 9 right; left; reflexivity.
Qed.

(** ** The sign of a product of doubles (binary64) *)












(** ** The cost of a segment (binary64) *)




(** ** The heuristic against the Euclidean distance (binary64) *)

(** C3: the heuristic of [main] (goal centre [(10, 10)], radius
    [sqrt(0.25) = 0.5]) at the state [(11, 11, 0)].  The point
    [p = (10.3535533905932737, 10.3535533905932737)] is in the goal disk,
    and the value [costToGo] returns is above the distance from the state
    to [p]: its square is above the squared distance.  At the state
    [(1e200, 10, 0)] the square overflows and [costToGo] returns plus
    infinity, above every distance.  With a negative radius [costToGo]
    is above the distance to the goal centre itself. *)
Theorem costToGo_overestimates_binary64 :
  let h := main_heuristic (A := binary64) in
  let s := [dlit 11.0; dlit 11.0; dlit 0.0] in
  let p := (103535533905932737 # 10000000000000000)%Q in
  (SF2Q (vget (goal h) 0) == 10 /\ SF2Q (vget (goal h) 1) == 10
   /\ SF2Q (radius h) == 1 # 2
   /\ SF2Q (vget s 0) == 11 /\ SF2Q (vget s 1) == 11)%Q
  /\ ((p - 10) ^ 2 + (p - 10) ^ 2 <= (1 # 2) ^ 2)%Q
  /\ costToGo h s = S754_finite false 8234503717681050 (-53)
  /\ (0 < SF2Q (costToGo h s))%Q
  /\ ((11 - p) ^ 2 + (11 - p) ^ 2 < SF2Q (costToGo h s) ^ 2)%Q
  /\ costToGo h [dlit 1e200; dlit 10.0; dlit 0.0] = S754_infinity false
  /\ (costToGo (A := binary64) inverted_heuristic
        [dlit 0.0; dlit 0.0; dlit 0.0] = dlit 1.0
      /\ dltb (Arith := binary64) (dlit 0.0) (dlit 1.0) = true).
Proof.
  cbv zeta.
  split; [repeat split; vm_compute; reflexivity|].
  split; [vm_compute; discriminate|].
  split; [vm_compute; reflexivity|].
  split; [vm_compute; reflexivity|].
  split; [vm_compute; reflexivity|].
  split; [vm_compute; reflexivity|].
  split; vm_compute; reflexivity.
Qed.
